(** * LLVM IR values and instructions (packages [values] and [ir])

    A shallow embedding of [values/value.go]: the [Value] interface, the
    [Instruction] marker interface, the instruction structs, the two
    comparison-predicate constant blocks and the [isInst] methods.

    The source consists of type declarations, constant declarations and
    twelve empty-bodied methods; the operations performed on the nodes
    are therefore the ones the Go language itself provides (composite
    literals, field selection, [len] and indexing of slices, lookup and
    assignment on maps, method calls, interface satisfaction).  They are
    modelled in [Module Go] below. *)

From stdpp Require Import gmap strings list fin_maps.
From Stdlib Require Import ZArith Eqdep_dec.

Local Open Scope Z_scope.

(** ** The parts of the Go language the declarations rely on *)

Module Go.

(** *** Machine integers

    Go's [int] is a signed machine word.  Its size is 64 bits on the
    64-bit targets; the values are the integers of that range, and a
    conversion from an arbitrary integer wraps around. *)

Definition int_size : Z := 64.
Definition min_int : Z := - 2 ^ (int_size - 1).
Definition max_int : Z := 2 ^ (int_size - 1) - 1.

Definition in_range (z : Z) : bool := (min_int <=? z) && (z <=? max_int).

Record int : Type := mkint { int_val : Z; int_ok : in_range int_val = true }.

Definition wrap (z : Z) : Z :=
  (z + 2 ^ (int_size - 1)) mod 2 ^ int_size - 2 ^ (int_size - 1).

Lemma wrap_in_range (z : Z) : in_range (wrap z) = true.
Proof.
  unfold in_range, wrap, min_int, max_int.
  pose proof (Z.mod_pos_bound (z + 2 ^ (int_size - 1)) (2 ^ int_size)) as Hb.
  assert (Hp : 2 ^ int_size = 2 * 2 ^ (int_size - 1)) by reflexivity.
  assert (Hq : 0 < 2 ^ (int_size - 1)) by reflexivity.
  apply andb_true_intro; split; [apply Z.leb_le | apply Z.leb_le]; lia.
Qed.

Lemma wrap_id (z : Z) : in_range z = true -> wrap z = z.
Proof.
  unfold in_range, wrap, min_int, max_int. intros H.
  apply andb_prop in H as [Hlo Hhi].
  apply Z.leb_le in Hlo. apply Z.leb_le in Hhi.
  assert (Hp : 2 ^ int_size = 2 * 2 ^ (int_size - 1)) by reflexivity.
  rewrite Z.mod_small; lia.
Qed.

Definition int_of_Z (z : Z) : int := mkint (wrap z) (wrap_in_range z).

Lemma int_eq (a b : int) : int_val a = int_val b -> a = b.
Proof.
  destruct a as [x Hx], b as [y Hy]; simpl; intros ->.
  f_equal. apply UIP_dec. decide equality.
Qed.

Lemma int_of_Z_val (a : int) : int_of_Z (int_val a) = a.
Proof. apply int_eq; simpl. apply wrap_id, int_ok. Qed.

Lemma int_val_of_Z (z : Z) : in_range z = true -> int_val (int_of_Z z) = z.
Proof. apply wrap_id. Qed.

(** *** Outcome of an operation: it returns, or the run-time panics. *)

Inductive outcome (A : Type) : Type :=
| Returns (a : A)
| Panics (reason : string).
Arguments Returns {A} a.
Arguments Panics {A} reason.

(** *** Interface values

    A value of interface type is [nil] or holds a dynamic value of a
    type that implements the interface; [nil] is the zero value. *)

Definition iface (D : Type) : Type := option D.
Definition nil_iface {D : Type} : iface D := None.

(** *** Slices

    [len] and indexing only see the sequence of elements; the nil slice
    (the zero value) has length 0 and is the empty sequence here. *)

Definition slice (A : Type) : Type := list A.
Definition nil_slice {A : Type} : slice A := [].

Definition len {A : Type} (s : slice A) : nat := length s.

(** [s[i]]: a run-time panic when [i] is out of range. *)
Definition index {A : Type} (s : slice A) (i : Z) : outcome A :=
  if i <? 0 then Panics "index out of range"
  else match s !! Z.to_nat i with
       | Some x => Returns x
       | None => Panics "index out of range"
       end.

(** *** Maps with string keys

    A map value is [nil] (the zero value) or refers to a hash table;
    keys are compared with [==], on strings equality of the bytes. *)

Definition map (V : Type) : Type := option (gmap string V).
Definition nil_map {V : Type} : map V := None.

(** [v, ok := m[k]]: the zero value and [false] when [k] is absent; a
    nil map behaves as an empty one. *)
Definition map_lookup {V : Type} (zero : V) (m : map V) (k : string) : V * bool :=
  match m with
  | None => (zero, false)
  | Some t => match t !! k with
              | Some v => (v, true)
              | None => (zero, false)
              end
  end.

(** [len(m)] *)
Definition map_len {V : Type} (m : map V) : nat :=
  match m with
  | None => 0%nat
  | Some t => size t
  end.

(** [m[k] = v]: a run-time panic on a nil map. *)
Definition map_assign {V : Type} (m : map V) (k : string) (v : V) : outcome (map V) :=
  match m with
  | None => Panics "assignment to entry in nil map"
  | Some t => Returns (Some (<[k:=v]> t))
  end.

(** *** Composite literals

    In a keyed literal [T{f: x, ...}] every field that is left out has
    the zero value of its type. *)

Definition zero_int : int := int_of_Z 0.

Definition field {A : Type} (zero : A) (init : option A) : A :=
  match init with
  | Some x => x
  | None => zero
  end.

(** *** Field selection and method calls

    [x.f] on a struct value: the result is the field, and the struct is
    only read.  The second component is the struct after the access. *)
Definition select {A B : Type} (f : A -> B) (x : A) : outcome (B * A) :=
  Returns (f x, x).

(** A method is modelled by its result together with the receiver as it
    is when the method returns; [after] carries such an outcome from the
    dynamic type to the interface type through which the call is made. *)
Definition after {A B R : Type} (inj : A -> B) (o : outcome (R * A)) :
    outcome (R * B) :=
  match o with
  | Returns (r, a) => Returns (r, inj a)
  | Panics reason => Panics reason
  end.

(** *** Constant blocks

    In a parenthesised [const] declaration [iota] is the index of the
    constant specification, and a specification without an expression
    repeats the previous one; with [C0 T = iota] first, the i-th
    constant has value i. *)

Fixpoint spec_index (name : string) (block : list string) : nat :=
  match block with
  | [] => 0%nat
  | n :: rest => if String.eqb name n then 0%nat else S (spec_index name rest)
  end.

Definition iota (block : list string) (name : string) : int :=
  int_of_Z (Z.of_nat (spec_index name block)).

(** *** Method sets and interface satisfaction

    A type implements an interface when its method set contains every
    method of the interface, with the same signature. *)

Record Method : Type := method { method_name : string; method_sig : string }.

#[global] Instance Method_eq_dec : EqDecision Method.
Proof. solve_decision. Defined.

Definition has_method (ms : list Method) (m : Method) : bool :=
  bool_decide (m ∈ ms).

Definition implements (ms : list Method) (interface : list Method) : bool :=
  forallb (has_method ms) interface.

(** *** Sequencing

    Statements run in order: when one panics, the ones after it do not
    run and the panic is the outcome of the sequence. *)
Definition and_then {A B : Type} (o : outcome A) (k : A -> outcome B) :
    outcome B :=
  match o with
  | Returns a => k a
  | Panics reason => Panics reason
  end.

End Go.

Import Go.

(** ** The declared struct types and their method sets *)

(** The named struct types of package [ir], in the order of the source. *)
Module Kind.
Inductive t : Set :=
| AddInst | FaddInst | SubInst | FsubInst | MulInst | FmulInst
| UdivInst | SdivInst | FdivInst | UremInst | SremInst | FremInst
| ShlInst | LshrInst | AshrInst | AndInst | OrInst | XorInst
| AllocaInst | LoadInst | StoreInst | GetelementptrInst
| IcmpInst | FcmpInst | PhiInst.

#[global] Instance eq_dec : EqDecision t.
Proof. solve_decision. Defined.

Definition all : list t :=
  [ AddInst; FaddInst; SubInst; FsubInst; MulInst; FmulInst;
    UdivInst; SdivInst; FdivInst; UremInst; SremInst; FremInst;
    ShlInst; LshrInst; AshrInst; AndInst; OrInst; XorInst;
    AllocaInst; LoadInst; StoreInst; GetelementptrInst;
    IcmpInst; FcmpInst; PhiInst ].
End Kind.

(** The four groups of the [Instruction] documentation; a struct belongs
    to the group under whose heading the source declares it. *)
Inductive Group : Set :=
| BinaryOps      (* Binary Operations *)
| BitwiseOps     (* Bitwise Binary Operations *)
| MemoryOps      (* Memory Access and Addressing Operations *)
| OtherOps.      (* Other Operations *)

Definition group_of (k : Kind.t) : Group :=
  match k with
  | Kind.AddInst | Kind.FaddInst | Kind.SubInst | Kind.FsubInst
  | Kind.MulInst | Kind.FmulInst | Kind.UdivInst | Kind.SdivInst
  | Kind.FdivInst | Kind.UremInst | Kind.SremInst | Kind.FremInst => BinaryOps
  | Kind.ShlInst | Kind.LshrInst | Kind.AshrInst
  | Kind.AndInst | Kind.OrInst | Kind.XorInst => BitwiseOps
  | Kind.AllocaInst | Kind.LoadInst | Kind.StoreInst
  | Kind.GetelementptrInst => MemoryOps
  | Kind.IcmpInst | Kind.FcmpInst | Kind.PhiInst => OtherOps
  end.

Definition is_comparison (k : Kind.t) : bool :=
  match k with
  | Kind.IcmpInst | Kind.FcmpInst => true
  | _ => false
  end.

(** [type Value interface { fmt.Stringer; Type() types.Type }] *)
Definition Value_methods : list Method :=
  [ method "String" "func() string"; method "Type" "func() types.Type" ].

(** [type Instruction interface { isInst() }] *)
Definition Instruction_methods : list Method :=
  [ method "isInst" "func()" ].

(** The methods the source declares with each struct as receiver: the
    twelve [isInst] declarations that close the file, and nothing else. *)
Definition method_set (k : Kind.t) : list Method :=
  match k with
  | Kind.AddInst => [ method "isInst" "func()" ]
  | Kind.FaddInst => [ method "isInst" "func()" ]
  | Kind.SubInst => [ method "isInst" "func()" ]
  | Kind.FsubInst => [ method "isInst" "func()" ]
  | Kind.MulInst => [ method "isInst" "func()" ]
  | Kind.FmulInst => [ method "isInst" "func()" ]
  | Kind.UdivInst => [ method "isInst" "func()" ]
  | Kind.SdivInst => [ method "isInst" "func()" ]
  | Kind.FdivInst => [ method "isInst" "func()" ]
  | Kind.UremInst => [ method "isInst" "func()" ]
  | Kind.SremInst => [ method "isInst" "func()" ]
  | Kind.FremInst => [ method "isInst" "func()" ]
  | Kind.ShlInst | Kind.LshrInst | Kind.AshrInst
  | Kind.AndInst | Kind.OrInst | Kind.XorInst => []
  | Kind.AllocaInst | Kind.LoadInst | Kind.StoreInst
  | Kind.GetelementptrInst => []
  | Kind.IcmpInst | Kind.FcmpInst | Kind.PhiInst => []
  end.

(** Assignability of a struct type to the two interfaces. *)
Definition is_Instruction (k : Kind.t) : bool :=
  implements (method_set k) Instruction_methods.

Definition is_Value (k : Kind.t) : bool :=
  implements (method_set k) Value_methods.

(** ** The comparison predicates *)

(** [type IntPredicate int] *)
Record IntPredicate : Type := to_IntPredicate { IntPredicate_int : int }.

(** The constant specifications of the [IntPredicate] block, in order. *)
Definition IntPredicate_consts : list string :=
  [ "IntEq"; "IntNe"; "IntUgt"; "IntUge"; "IntUlt"; "IntUle";
    "IntSgt"; "IntSge"; "IntSlt"; "IntSle" ].

Definition IntPredicate_const (name : string) : IntPredicate :=
  to_IntPredicate (iota IntPredicate_consts name).

Definition IntEq : IntPredicate := IntPredicate_const "IntEq".
Definition IntNe : IntPredicate := IntPredicate_const "IntNe".
Definition IntUgt : IntPredicate := IntPredicate_const "IntUgt".
Definition IntUge : IntPredicate := IntPredicate_const "IntUge".
Definition IntUlt : IntPredicate := IntPredicate_const "IntUlt".
Definition IntUle : IntPredicate := IntPredicate_const "IntUle".
Definition IntSgt : IntPredicate := IntPredicate_const "IntSgt".
Definition IntSge : IntPredicate := IntPredicate_const "IntSge".
Definition IntSlt : IntPredicate := IntPredicate_const "IntSlt".
Definition IntSle : IntPredicate := IntPredicate_const "IntSle".

(** [type FloatPredicate int] *)
Record FloatPredicate : Type := to_FloatPredicate { FloatPredicate_int : int }.

(** The constant specifications of the [FloatPredicate] block, in order. *)
Definition FloatPredicate_consts : list string :=
  [ "FloatFalse"; "FloatOeq"; "FloatOgt"; "FloatOge"; "FloatOlt";
    "FloatOle"; "FloatOne"; "FloatOrd"; "FloatUeq"; "FloatUgt";
    "FloatUge"; "FloatUlt"; "FloatUle"; "FloatUne"; "FloatUno";
    "FloatTrue" ].

Definition FloatPredicate_const (name : string) : FloatPredicate :=
  to_FloatPredicate (iota FloatPredicate_consts name).

Definition FloatFalse : FloatPredicate := FloatPredicate_const "FloatFalse".
Definition FloatOeq : FloatPredicate := FloatPredicate_const "FloatOeq".
Definition FloatOgt : FloatPredicate := FloatPredicate_const "FloatOgt".
Definition FloatOge : FloatPredicate := FloatPredicate_const "FloatOge".
Definition FloatOlt : FloatPredicate := FloatPredicate_const "FloatOlt".
Definition FloatOle : FloatPredicate := FloatPredicate_const "FloatOle".
Definition FloatOne : FloatPredicate := FloatPredicate_const "FloatOne".
Definition FloatOrd : FloatPredicate := FloatPredicate_const "FloatOrd".
Definition FloatUeq : FloatPredicate := FloatPredicate_const "FloatUeq".
Definition FloatUgt : FloatPredicate := FloatPredicate_const "FloatUgt".
Definition FloatUge : FloatPredicate := FloatPredicate_const "FloatUge".
Definition FloatUlt : FloatPredicate := FloatPredicate_const "FloatUlt".
Definition FloatUle : FloatPredicate := FloatPredicate_const "FloatUle".
Definition FloatUne : FloatPredicate := FloatPredicate_const "FloatUne".
Definition FloatUno : FloatPredicate := FloatPredicate_const "FloatUno".
Definition FloatTrue : FloatPredicate := FloatPredicate_const "FloatTrue".

(** The ordinal of a predicate, as an integer. *)
Definition IntPredicate_ord (p : IntPredicate) : Z := int_val (IntPredicate_int p).
Definition FloatPredicate_ord (p : FloatPredicate) : Z := int_val (FloatPredicate_int p).

(** ** The instruction structs *)

Section Nodes.

(** The dynamic values behind the two interfaces come from outside this
    file: the implementations of [types.Type] and of [values.Value]. *)
Variable TypeImpl : Type.
Variable ValueImpl : Type.

Definition types_Type : Type := iface TypeImpl.
Definition values_Value : Type := iface ValueImpl.

Record AddInst : Type := {
  AddInst_Type : types_Type;
  AddInst_Op1 : values_Value;
  AddInst_Op2 : values_Value
}.

Record FaddInst : Type := {
  FaddInst_Type : types_Type;
  FaddInst_Op1 : values_Value;
  FaddInst_Op2 : values_Value
}.

Record SubInst : Type := {
  SubInst_Type : types_Type;
  SubInst_Op1 : values_Value;
  SubInst_Op2 : values_Value
}.

Record FsubInst : Type := {
  FsubInst_Type : types_Type;
  FsubInst_Op1 : values_Value;
  FsubInst_Op2 : values_Value
}.

Record MulInst : Type := {
  MulInst_Type : types_Type;
  MulInst_Op1 : values_Value;
  MulInst_Op2 : values_Value
}.

Record FmulInst : Type := {
  FmulInst_Type : types_Type;
  FmulInst_Op1 : values_Value;
  FmulInst_Op2 : values_Value
}.

Record UdivInst : Type := {
  UdivInst_Type : types_Type;
  UdivInst_Op1 : values_Value;
  UdivInst_Op2 : values_Value
}.

Record SdivInst : Type := {
  SdivInst_Type : types_Type;
  SdivInst_Op1 : values_Value;
  SdivInst_Op2 : values_Value
}.

Record FdivInst : Type := {
  FdivInst_Type : types_Type;
  FdivInst_Op1 : values_Value;
  FdivInst_Op2 : values_Value
}.

Record UremInst : Type := {
  UremInst_Type : types_Type;
  UremInst_Op1 : values_Value;
  UremInst_Op2 : values_Value
}.

Record SremInst : Type := {
  SremInst_Type : types_Type;
  SremInst_Op1 : values_Value;
  SremInst_Op2 : values_Value
}.

Record FremInst : Type := {
  FremInst_Type : types_Type;
  FremInst_Op1 : values_Value;
  FremInst_Op2 : values_Value
}.

Record ShlInst : Type := {
  ShlInst_Type : types_Type;
  ShlInst_Op1 : values_Value;
  ShlInst_Op2 : values_Value
}.

Record LshrInst : Type := {
  LshrInst_Type : types_Type;
  LshrInst_Op1 : values_Value;
  LshrInst_Op2 : values_Value
}.

Record AshrInst : Type := {
  AshrInst_Type : types_Type;
  AshrInst_Op1 : values_Value;
  AshrInst_Op2 : values_Value
}.

Record AndInst : Type := {
  AndInst_Type : types_Type;
  AndInst_Op1 : values_Value;
  AndInst_Op2 : values_Value
}.

Record OrInst : Type := {
  OrInst_Type : types_Type;
  OrInst_Op1 : values_Value;
  OrInst_Op2 : values_Value
}.

Record XorInst : Type := {
  XorInst_Type : types_Type;
  XorInst_Op1 : values_Value;
  XorInst_Op2 : values_Value
}.

Record AllocaInst : Type := {
  AllocaInst_Type : types_Type;
  AllocaInst_NumElems : int;
  AllocaInst_Align : int
}.

Record LoadInst : Type := {
  LoadInst_Type : types_Type;
  LoadInst_Addr : values_Value;
  LoadInst_Align : int
}.

Record StoreInst : Type := {
  StoreInst_Type : types_Type;
  StoreInst_Val : values_Value;
  StoreInst_Addr : values_Value;
  StoreInst_Align : int
}.

Record GetelementptrInst : Type := {
  GetelementptrInst_Type : types_Type;
  GetelementptrInst_Ptr : values_Value;
  GetelementptrInst_Indicies : slice int
}.

Record IcmpInst : Type := {
  IcmpInst_Pred : IntPredicate;
  IcmpInst_Type : types_Type;
  IcmpInst_Op1 : values_Value;
  IcmpInst_Op2 : values_Value
}.

Record FcmpInst : Type := {
  FcmpInst_Pred : FloatPredicate;
  FcmpInst_Type : types_Type;
  FcmpInst_Op1 : values_Value;
  FcmpInst_Op2 : values_Value
}.

Record PhiInst : Type := {
  PhiInst_Type : types_Type;
  PhiInst_Preds : map values_Value
}.

(** A node is a value of one of the declared struct types. *)
Inductive Node : Type :=
| Node_AddInst (n : AddInst)
| Node_FaddInst (n : FaddInst)
| Node_SubInst (n : SubInst)
| Node_FsubInst (n : FsubInst)
| Node_MulInst (n : MulInst)
| Node_FmulInst (n : FmulInst)
| Node_UdivInst (n : UdivInst)
| Node_SdivInst (n : SdivInst)
| Node_FdivInst (n : FdivInst)
| Node_UremInst (n : UremInst)
| Node_SremInst (n : SremInst)
| Node_FremInst (n : FremInst)
| Node_ShlInst (n : ShlInst)
| Node_LshrInst (n : LshrInst)
| Node_AshrInst (n : AshrInst)
| Node_AndInst (n : AndInst)
| Node_OrInst (n : OrInst)
| Node_XorInst (n : XorInst)
| Node_AllocaInst (n : AllocaInst)
| Node_LoadInst (n : LoadInst)
| Node_StoreInst (n : StoreInst)
| Node_GetelementptrInst (n : GetelementptrInst)
| Node_IcmpInst (n : IcmpInst)
| Node_FcmpInst (n : FcmpInst)
| Node_PhiInst (n : PhiInst).

Definition kind_of (n : Node) : Kind.t :=
  match n with
  | Node_AddInst _ => Kind.AddInst
  | Node_FaddInst _ => Kind.FaddInst
  | Node_SubInst _ => Kind.SubInst
  | Node_FsubInst _ => Kind.FsubInst
  | Node_MulInst _ => Kind.MulInst
  | Node_FmulInst _ => Kind.FmulInst
  | Node_UdivInst _ => Kind.UdivInst
  | Node_SdivInst _ => Kind.SdivInst
  | Node_FdivInst _ => Kind.FdivInst
  | Node_UremInst _ => Kind.UremInst
  | Node_SremInst _ => Kind.SremInst
  | Node_FremInst _ => Kind.FremInst
  | Node_ShlInst _ => Kind.ShlInst
  | Node_LshrInst _ => Kind.LshrInst
  | Node_AshrInst _ => Kind.AshrInst
  | Node_AndInst _ => Kind.AndInst
  | Node_OrInst _ => Kind.OrInst
  | Node_XorInst _ => Kind.XorInst
  | Node_AllocaInst _ => Kind.AllocaInst
  | Node_LoadInst _ => Kind.LoadInst
  | Node_StoreInst _ => Kind.StoreInst
  | Node_GetelementptrInst _ => Kind.GetelementptrInst
  | Node_IcmpInst _ => Kind.IcmpInst
  | Node_FcmpInst _ => Kind.FcmpInst
  | Node_PhiInst _ => Kind.PhiInst
  end.

(** *** Construction

    The source declares no constructor function; a node is built by a
    composite literal of its struct type.  A literal names the struct
    and gives an initialiser for some of the fields. *)
Inductive Literal : Type :=
| Lit_AddInst (Type_ : option types_Type) (Op1 Op2 : option values_Value)
| Lit_FaddInst (Type_ : option types_Type) (Op1 Op2 : option values_Value)
| Lit_SubInst (Type_ : option types_Type) (Op1 Op2 : option values_Value)
| Lit_FsubInst (Type_ : option types_Type) (Op1 Op2 : option values_Value)
| Lit_MulInst (Type_ : option types_Type) (Op1 Op2 : option values_Value)
| Lit_FmulInst (Type_ : option types_Type) (Op1 Op2 : option values_Value)
| Lit_UdivInst (Type_ : option types_Type) (Op1 Op2 : option values_Value)
| Lit_SdivInst (Type_ : option types_Type) (Op1 Op2 : option values_Value)
| Lit_FdivInst (Type_ : option types_Type) (Op1 Op2 : option values_Value)
| Lit_UremInst (Type_ : option types_Type) (Op1 Op2 : option values_Value)
| Lit_SremInst (Type_ : option types_Type) (Op1 Op2 : option values_Value)
| Lit_FremInst (Type_ : option types_Type) (Op1 Op2 : option values_Value)
| Lit_ShlInst (Type_ : option types_Type) (Op1 Op2 : option values_Value)
| Lit_LshrInst (Type_ : option types_Type) (Op1 Op2 : option values_Value)
| Lit_AshrInst (Type_ : option types_Type) (Op1 Op2 : option values_Value)
| Lit_AndInst (Type_ : option types_Type) (Op1 Op2 : option values_Value)
| Lit_OrInst (Type_ : option types_Type) (Op1 Op2 : option values_Value)
| Lit_XorInst (Type_ : option types_Type) (Op1 Op2 : option values_Value)
| Lit_AllocaInst (Type_ : option types_Type) (NumElems Align : option int)
| Lit_LoadInst (Type_ : option types_Type) (Addr : option values_Value)
    (Align : option int)
| Lit_StoreInst (Type_ : option types_Type) (Val Addr : option values_Value)
    (Align : option int)
| Lit_GetelementptrInst (Type_ : option types_Type)
    (Ptr : option values_Value) (Indicies : option (slice int))
| Lit_IcmpInst (Pred : option IntPredicate) (Type_ : option types_Type)
    (Op1 Op2 : option values_Value)
| Lit_FcmpInst (Pred : option FloatPredicate) (Type_ : option types_Type)
    (Op1 Op2 : option values_Value)
| Lit_PhiInst (Type_ : option types_Type) (Preds : option (map values_Value)).

Definition eval_literal (l : Literal) : outcome Node :=
  Returns
  match l with
  | Lit_AddInst ty a b =>
      Node_AddInst
        {| AddInst_Type := field nil_iface ty;
           AddInst_Op1 := field nil_iface a;
           AddInst_Op2 := field nil_iface b |}
  | Lit_FaddInst ty a b =>
      Node_FaddInst
        {| FaddInst_Type := field nil_iface ty;
           FaddInst_Op1 := field nil_iface a;
           FaddInst_Op2 := field nil_iface b |}
  | Lit_SubInst ty a b =>
      Node_SubInst
        {| SubInst_Type := field nil_iface ty;
           SubInst_Op1 := field nil_iface a;
           SubInst_Op2 := field nil_iface b |}
  | Lit_FsubInst ty a b =>
      Node_FsubInst
        {| FsubInst_Type := field nil_iface ty;
           FsubInst_Op1 := field nil_iface a;
           FsubInst_Op2 := field nil_iface b |}
  | Lit_MulInst ty a b =>
      Node_MulInst
        {| MulInst_Type := field nil_iface ty;
           MulInst_Op1 := field nil_iface a;
           MulInst_Op2 := field nil_iface b |}
  | Lit_FmulInst ty a b =>
      Node_FmulInst
        {| FmulInst_Type := field nil_iface ty;
           FmulInst_Op1 := field nil_iface a;
           FmulInst_Op2 := field nil_iface b |}
  | Lit_UdivInst ty a b =>
      Node_UdivInst
        {| UdivInst_Type := field nil_iface ty;
           UdivInst_Op1 := field nil_iface a;
           UdivInst_Op2 := field nil_iface b |}
  | Lit_SdivInst ty a b =>
      Node_SdivInst
        {| SdivInst_Type := field nil_iface ty;
           SdivInst_Op1 := field nil_iface a;
           SdivInst_Op2 := field nil_iface b |}
  | Lit_FdivInst ty a b =>
      Node_FdivInst
        {| FdivInst_Type := field nil_iface ty;
           FdivInst_Op1 := field nil_iface a;
           FdivInst_Op2 := field nil_iface b |}
  | Lit_UremInst ty a b =>
      Node_UremInst
        {| UremInst_Type := field nil_iface ty;
           UremInst_Op1 := field nil_iface a;
           UremInst_Op2 := field nil_iface b |}
  | Lit_SremInst ty a b =>
      Node_SremInst
        {| SremInst_Type := field nil_iface ty;
           SremInst_Op1 := field nil_iface a;
           SremInst_Op2 := field nil_iface b |}
  | Lit_FremInst ty a b =>
      Node_FremInst
        {| FremInst_Type := field nil_iface ty;
           FremInst_Op1 := field nil_iface a;
           FremInst_Op2 := field nil_iface b |}
  | Lit_ShlInst ty a b =>
      Node_ShlInst
        {| ShlInst_Type := field nil_iface ty;
           ShlInst_Op1 := field nil_iface a;
           ShlInst_Op2 := field nil_iface b |}
  | Lit_LshrInst ty a b =>
      Node_LshrInst
        {| LshrInst_Type := field nil_iface ty;
           LshrInst_Op1 := field nil_iface a;
           LshrInst_Op2 := field nil_iface b |}
  | Lit_AshrInst ty a b =>
      Node_AshrInst
        {| AshrInst_Type := field nil_iface ty;
           AshrInst_Op1 := field nil_iface a;
           AshrInst_Op2 := field nil_iface b |}
  | Lit_AndInst ty a b =>
      Node_AndInst
        {| AndInst_Type := field nil_iface ty;
           AndInst_Op1 := field nil_iface a;
           AndInst_Op2 := field nil_iface b |}
  | Lit_OrInst ty a b =>
      Node_OrInst
        {| OrInst_Type := field nil_iface ty;
           OrInst_Op1 := field nil_iface a;
           OrInst_Op2 := field nil_iface b |}
  | Lit_XorInst ty a b =>
      Node_XorInst
        {| XorInst_Type := field nil_iface ty;
           XorInst_Op1 := field nil_iface a;
           XorInst_Op2 := field nil_iface b |}
  | Lit_AllocaInst ty n al =>
      Node_AllocaInst
        {| AllocaInst_Type := field nil_iface ty;
           AllocaInst_NumElems := field zero_int n;
           AllocaInst_Align := field zero_int al |}
  | Lit_LoadInst ty addr al =>
      Node_LoadInst
        {| LoadInst_Type := field nil_iface ty;
           LoadInst_Addr := field nil_iface addr;
           LoadInst_Align := field zero_int al |}
  | Lit_StoreInst ty v addr al =>
      Node_StoreInst
        {| StoreInst_Type := field nil_iface ty;
           StoreInst_Val := field nil_iface v;
           StoreInst_Addr := field nil_iface addr;
           StoreInst_Align := field zero_int al |}
  | Lit_GetelementptrInst ty p idx =>
      Node_GetelementptrInst
        {| GetelementptrInst_Type := field nil_iface ty;
           GetelementptrInst_Ptr := field nil_iface p;
           GetelementptrInst_Indicies := field nil_slice idx |}
  | Lit_IcmpInst pr ty a b =>
      Node_IcmpInst
        {| IcmpInst_Pred := field (to_IntPredicate zero_int) pr;
           IcmpInst_Type := field nil_iface ty;
           IcmpInst_Op1 := field nil_iface a;
           IcmpInst_Op2 := field nil_iface b |}
  | Lit_FcmpInst pr ty a b =>
      Node_FcmpInst
        {| FcmpInst_Pred := field (to_FloatPredicate zero_int) pr;
           FcmpInst_Type := field nil_iface ty;
           FcmpInst_Op1 := field nil_iface a;
           FcmpInst_Op2 := field nil_iface b |}
  | Lit_PhiInst ty ps =>
      Node_PhiInst
        {| PhiInst_Type := field nil_iface ty;
           PhiInst_Preds := field nil_map ps |}
  end.

(** *** The [isInst] methods

    Each declaration has an unnamed value receiver and an empty body.  A
    method is modelled by its result together with the receiver as it is
    when the method returns. *)
Definition AddInst_isInst (recv : AddInst) : outcome (unit * AddInst) :=
  Returns (tt, recv).
Definition FaddInst_isInst (recv : FaddInst) : outcome (unit * FaddInst) :=
  Returns (tt, recv).
Definition SubInst_isInst (recv : SubInst) : outcome (unit * SubInst) :=
  Returns (tt, recv).
Definition FsubInst_isInst (recv : FsubInst) : outcome (unit * FsubInst) :=
  Returns (tt, recv).
Definition MulInst_isInst (recv : MulInst) : outcome (unit * MulInst) :=
  Returns (tt, recv).
Definition FmulInst_isInst (recv : FmulInst) : outcome (unit * FmulInst) :=
  Returns (tt, recv).
Definition UdivInst_isInst (recv : UdivInst) : outcome (unit * UdivInst) :=
  Returns (tt, recv).
Definition SdivInst_isInst (recv : SdivInst) : outcome (unit * SdivInst) :=
  Returns (tt, recv).
Definition FdivInst_isInst (recv : FdivInst) : outcome (unit * FdivInst) :=
  Returns (tt, recv).
Definition UremInst_isInst (recv : UremInst) : outcome (unit * UremInst) :=
  Returns (tt, recv).
Definition SremInst_isInst (recv : SremInst) : outcome (unit * SremInst) :=
  Returns (tt, recv).
Definition FremInst_isInst (recv : FremInst) : outcome (unit * FremInst) :=
  Returns (tt, recv).

(** The dynamic values of a non-nil [Instruction]: [isInst] is not
    exported, so only the types of this package that declare it can be
    assigned to the interface. *)
Inductive Instruction : Type :=
| Instruction_AddInst (n : AddInst)
| Instruction_FaddInst (n : FaddInst)
| Instruction_SubInst (n : SubInst)
| Instruction_FsubInst (n : FsubInst)
| Instruction_MulInst (n : MulInst)
| Instruction_FmulInst (n : FmulInst)
| Instruction_UdivInst (n : UdivInst)
| Instruction_SdivInst (n : SdivInst)
| Instruction_FdivInst (n : FdivInst)
| Instruction_UremInst (n : UremInst)
| Instruction_SremInst (n : SremInst)
| Instruction_FremInst (n : FremInst).

(** A call [i.isInst()] through the interface dispatches on the dynamic
    type. *)
Definition isInst (i : Instruction) : outcome (unit * Instruction) :=
  match i with
  | Instruction_AddInst n =>
      after Instruction_AddInst (AddInst_isInst n)
  | Instruction_FaddInst n =>
      after Instruction_FaddInst (FaddInst_isInst n)
  | Instruction_SubInst n =>
      after Instruction_SubInst (SubInst_isInst n)
  | Instruction_FsubInst n =>
      after Instruction_FsubInst (FsubInst_isInst n)
  | Instruction_MulInst n =>
      after Instruction_MulInst (MulInst_isInst n)
  | Instruction_FmulInst n =>
      after Instruction_FmulInst (FmulInst_isInst n)
  | Instruction_UdivInst n =>
      after Instruction_UdivInst (UdivInst_isInst n)
  | Instruction_SdivInst n =>
      after Instruction_SdivInst (SdivInst_isInst n)
  | Instruction_FdivInst n =>
      after Instruction_FdivInst (FdivInst_isInst n)
  | Instruction_UremInst n =>
      after Instruction_UremInst (UremInst_isInst n)
  | Instruction_SremInst n =>
      after Instruction_SremInst (SremInst_isInst n)
  | Instruction_FremInst n =>
      after Instruction_FremInst (FremInst_isInst n)
  end.

Definition Instruction_node (i : Instruction) : Node :=
  match i with
  | Instruction_AddInst n => Node_AddInst n
  | Instruction_FaddInst n => Node_FaddInst n
  | Instruction_SubInst n => Node_SubInst n
  | Instruction_FsubInst n => Node_FsubInst n
  | Instruction_MulInst n => Node_MulInst n
  | Instruction_FmulInst n => Node_FmulInst n
  | Instruction_UdivInst n => Node_UdivInst n
  | Instruction_SdivInst n => Node_SdivInst n
  | Instruction_FdivInst n => Node_FdivInst n
  | Instruction_UremInst n => Node_UremInst n
  | Instruction_SremInst n => Node_SremInst n
  | Instruction_FremInst n => Node_FremInst n
  end.

(** Conversion of a node to [Instruction]; [None] where the compiler
    rejects it because the struct type has no [isInst] method. *)
Definition as_Instruction (n : Node) : option Instruction :=
  match n with
  | Node_AddInst n => Some (Instruction_AddInst n)
  | Node_FaddInst n => Some (Instruction_FaddInst n)
  | Node_SubInst n => Some (Instruction_SubInst n)
  | Node_FsubInst n => Some (Instruction_FsubInst n)
  | Node_MulInst n => Some (Instruction_MulInst n)
  | Node_FmulInst n => Some (Instruction_FmulInst n)
  | Node_UdivInst n => Some (Instruction_UdivInst n)
  | Node_SdivInst n => Some (Instruction_SdivInst n)
  | Node_FdivInst n => Some (Instruction_FdivInst n)
  | Node_UremInst n => Some (Instruction_UremInst n)
  | Node_SremInst n => Some (Instruction_SremInst n)
  | Node_FremInst n => Some (Instruction_FremInst n)
  | Node_ShlInst _ => None
  | Node_LshrInst _ => None
  | Node_AshrInst _ => None
  | Node_AndInst _ => None
  | Node_OrInst _ => None
  | Node_XorInst _ => None
  | Node_AllocaInst _ => None
  | Node_LoadInst _ => None
  | Node_StoreInst _ => None
  | Node_GetelementptrInst _ => None
  | Node_IcmpInst _ => None
  | Node_FcmpInst _ => None
  | Node_PhiInst _ => None
  end.

(** *** The φ-node of the running example

    [PhiInst{Type: T, Preds: map[string]values.Value{"bb1": v1, "bb2": v2}}] *)
Definition two_preds (v1 v2 : values_Value) : gmap string values_Value :=
  <["bb1" := v1]> (<["bb2" := v2]> ∅).

Definition two_preds_phi (ty : types_Type) (v1 v2 : values_Value) : PhiInst :=
  {| PhiInst_Type := ty; PhiInst_Preds := Some (two_preds v1 v2) |}.

(** ** Properties of the nodes *)

(** The two views of the [Instruction] interface agree: a node converts
    to [Instruction] exactly when the method set of its struct type
    contains the methods of the interface. *)
Lemma as_Instruction_is_Instruction (n : Node) :
  is_Some (as_Instruction n) <-> is_Instruction (kind_of n) = true.
Proof.
  destruct n; simpl; split; intros H;
    solve [ reflexivity | eexists; reflexivity
          | destruct H; discriminate | discriminate H ].
Qed.

Lemma as_Instruction_node (i : Instruction) :
  as_Instruction (Instruction_node i) = Some i.
Proof. destruct i; reflexivity. Qed.

(** C3.  A literal [AllocaInst{Type: T}] (with or without [Align]) that
    leaves [NumElems] out evaluates to a node whose [NumElems] is the
    zero value 0: nothing in the source puts the documented default 1
    there. *)
Theorem AllocaInst_NumElems_unset (ty : option types_Type) (al : option int) :
  exists n : AllocaInst,
    eval_literal (Lit_AllocaInst ty None al) = Returns (Node_AllocaInst n)
    /\ int_val (AllocaInst_NumElems n) = 0
    /\ int_val (AllocaInst_NumElems n) <> 1.
Proof.
  eexists; split; [reflexivity |]. simpl. split; [reflexivity | discriminate].
Qed.

(** C5.  On a [PhiInst] whose [Preds] holds a value under a label, the
    lookup of that label returns exactly that value; a label that is not
    a key is reported absent; and assigning a value under the label that
    is already present succeeds, leaves the number of entries unchanged,
    makes the lookup of the label return the new value and does not
    affect the lookup of any other label. *)
Theorem PhiInst_Preds_lookup_assign
    (p : PhiInst) (t : gmap string values_Value) (l : string)
    (v new : values_Value) :
  PhiInst_Preds p = Some t ->
  t !! l = Some v ->
  map_lookup nil_iface (PhiInst_Preds p) l = (v, true)
  /\ (forall l', t !! l' = None ->
        map_lookup nil_iface (PhiInst_Preds p) l' = (nil_iface, false))
  /\ exists m',
       map_assign (PhiInst_Preds p) l new = Returns m'
       /\ map_len m' = map_len (PhiInst_Preds p)
       /\ map_lookup nil_iface m' l = (new, true)
       /\ forall l', l' <> l ->
            map_lookup nil_iface m' l' = map_lookup nil_iface (PhiInst_Preds p) l'.
Proof.
  intros Hp Hl. rewrite Hp.
  unfold map_lookup, map_assign, map_len, values_Value in *.
  split; [by rewrite Hl |].
  split; [by intros l' -> |].
  eexists; split; [reflexivity |].
  split; [by erewrite map_size_insert_Some |].
  split; [by rewrite lookup_insert_eq |].
  intros l' Hne. by rewrite lookup_insert_ne.
Qed.

(** C6.  Construction followed by field selection is the identity.  The
    literal [AddInst{Type: T, Op1: a, Op2: b}] evaluates to a node whose
    [Type], [Op1] and [Op2] select to exactly [T], [a] and [b]; the
    literal [IcmpInst{Pred: pr, Type: T, Op1: a, Op2: b}] to a node whose
    [Pred] selects to [pr], in particular for [IntSlt]; a selection
    leaves the node as it is, so a repeated selection reads the same.
    This holds for all operands, whatever their types. *)
Theorem construction_then_selection
    (ty : types_Type) (a b : values_Value) (pr : IntPredicate) :
  (exists n : AddInst,
     eval_literal (Lit_AddInst (Some ty) (Some a) (Some b))
       = Returns (Node_AddInst n)
     /\ select AddInst_Type n = Returns (ty, n)
     /\ select AddInst_Op1 n = Returns (a, n)
     /\ select AddInst_Op2 n = Returns (b, n))
  /\ (exists n : IcmpInst,
        eval_literal (Lit_IcmpInst (Some pr) (Some ty) (Some a) (Some b))
          = Returns (Node_IcmpInst n)
        /\ select IcmpInst_Pred n = Returns (pr, n)
        /\ IcmpInst_Type n = ty /\ IcmpInst_Op1 n = a /\ IcmpInst_Op2 n = b)
  /\ (exists n : IcmpInst,
        eval_literal (Lit_IcmpInst (Some IntSlt) (Some ty) (Some a) (Some b))
          = Returns (Node_IcmpInst n)
        /\ IcmpInst_Pred n = IntSlt
        /\ IntPredicate_ord (IcmpInst_Pred n) = 8).
Proof.
  split; [| split]; eexists; (split; [reflexivity |]); simpl; auto.
Qed.

(** C7.  The literal [GetelementptrInst{..., Indicies: idx}] evaluates to
    a node whose [Indicies] is [idx]: the same length, and the same
    element at every position.  For the indices 0, 3 the length is 2,
    position 0 holds 0 and position 1 holds 3. *)
Theorem GetelementptrInst_Indicies_order
    (ty : option types_Type) (ptr : option values_Value) (idx : slice int) :
  (exists g : GetelementptrInst,
     eval_literal (Lit_GetelementptrInst ty ptr (Some idx))
       = Returns (Node_GetelementptrInst g)
     /\ GetelementptrInst_Indicies g = idx
     /\ len (GetelementptrInst_Indicies g) = len idx
     /\ forall i, index (GetelementptrInst_Indicies g) i = index idx i)
  /\ (exists g : GetelementptrInst,
        eval_literal
          (Lit_GetelementptrInst ty ptr (Some [int_of_Z 0; int_of_Z 3]))
          = Returns (Node_GetelementptrInst g)
        /\ len (GetelementptrInst_Indicies g) = 2%nat
        /\ int_val <$> GetelementptrInst_Indicies g = [0; 3]
        /\ index (GetelementptrInst_Indicies g) 0 = Returns (int_of_Z 0)
        /\ index (GetelementptrInst_Indicies g) 1 = Returns (int_of_Z 3)).
Proof.
  split; eexists; (split; [reflexivity |]); simpl; auto.
Qed.

(** C8.  No core operation fails.  Every composite literal evaluates to
    a node, of the struct type it names; in particular an [AllocaInst]
    is built for every [NumElems] and [Align] (also below 1, or not a
    power of two), a [GetelementptrInst] for the empty index list, and
    an [AddInst] for every pair of operands and every type.  Every
    [isInst] call and every field selection returns. *)
Theorem core_operations_total :
  (forall l : Literal, exists n, eval_literal l = Returns n)
  /\ (forall (ty : types_Type) (num al : int),
        eval_literal (Lit_AllocaInst (Some ty) (Some num) (Some al))
        = Returns (Node_AllocaInst
                     {| AllocaInst_Type := ty;
                        AllocaInst_NumElems := num;
                        AllocaInst_Align := al |}))
  /\ (forall (ty : types_Type) (ptr : values_Value),
        eval_literal (Lit_GetelementptrInst (Some ty) (Some ptr) (Some []))
        = Returns (Node_GetelementptrInst
                     {| GetelementptrInst_Type := ty;
                        GetelementptrInst_Ptr := ptr;
                        GetelementptrInst_Indicies := [] |}))
  /\ (forall (ty : types_Type) (a b : values_Value),
        eval_literal (Lit_AddInst (Some ty) (Some a) (Some b))
        = Returns (Node_AddInst
                     {| AddInst_Type := ty;
                        AddInst_Op1 := a;
                        AddInst_Op2 := b |}))
  /\ (forall ty : types_Type,
        exists n : AllocaInst,
          eval_literal
            (Lit_AllocaInst (Some ty) (Some (int_of_Z (-5))) (Some (int_of_Z 3)))
          = Returns (Node_AllocaInst n)
          /\ int_val (AllocaInst_NumElems n) = -5
          /\ int_val (AllocaInst_Align n) = 3)
  /\ (forall i : Instruction, exists r, isInst i = Returns r)
  /\ (forall (A B : Type) (f : A -> B) (x : A),
        exists r, select f x = Returns r).
Proof.
  repeat split; try reflexivity.
  - intros l. eexists. reflexivity.
  - intros ty. eexists. repeat split.
  - intros i. destruct i; eexists; reflexivity.
  - intros A B f x. eexists. reflexivity.
Qed.

(** C9.  The core operations on a constructed node, the marker method
    [isInst] and field selection, leave the node as it was: the node
    after the operation equals the node before, field by field. *)
Theorem core_operations_frame :
  (forall i : Instruction, isInst i = Returns (tt, i))
  /\ (forall (A B : Type) (f : A -> B) (x : A),
        select f x = Returns (f x, x)).
Proof.
  split; [| reflexivity]. intros i; destruct i; reflexivity.
Qed.

(** C10.  The indices of every [GetelementptrInst] are machine-integer
    constants: the sequence is the image of a list of integers of the
    [int] range, and every element is the constant of its own integer
    value.  The element type leaves no room for an operand of interface
    type [values.Value]. *)
Theorem GetelementptrInst_Indicies_static (g : GetelementptrInst) :
  exists zs : list Z,
    GetelementptrInst_Indicies g = int_of_Z <$> zs
    /\ Forall (fun z => min_int <= z <= max_int) zs
    /\ length zs = len (GetelementptrInst_Indicies g).
Proof.
  exists (int_val <$> GetelementptrInst_Indicies g).
  split; [| split].
  - induction (GetelementptrInst_Indicies g) as [| x xs IH]; csimpl; [done |].
    f_equal; [symmetry; apply int_of_Z_val | exact IH].
  - apply Forall_fmap, Forall_forall. intros x _. simpl.
    pose proof (int_ok x) as Hx. unfold in_range in Hx.
    apply andb_prop in Hx as [Hlo Hhi].
    apply Z.leb_le in Hlo. apply Z.leb_le in Hhi. lia.
  - unfold len. by rewrite length_fmap.
Qed.

(** On the running example, [Preds["bb1"]] is [v1] and a label that
    differs in one character is absent; after [Preds["bb2"] = v3] the map
    has 2 entries, [Preds["bb2"]] is [v3] and [Preds["bb1"]] is still
    [v1]. *)
Lemma two_preds_phi_assign (ty : types_Type) (v1 v2 v3 : values_Value) :
  map_lookup nil_iface (PhiInst_Preds (two_preds_phi ty v1 v2)) "bb1"
  = (v1, true)
  /\ map_lookup nil_iface (PhiInst_Preds (two_preds_phi ty v1 v2)) "bb"
     = (nil_iface, false)
  /\ map_len (PhiInst_Preds (two_preds_phi ty v1 v2)) = 2%nat
  /\ exists m',
       map_assign (PhiInst_Preds (two_preds_phi ty v1 v2)) "bb2" v3
       = Returns m'
       /\ map_len m' = 2%nat
       /\ map_lookup nil_iface m' "bb2" = (v3, true)
       /\ map_lookup nil_iface m' "bb1" = (v1, true).
Proof.
  split; [reflexivity |]. split; [reflexivity |]. split; [reflexivity |].
  eexists. split; [reflexivity |]. repeat split.
Qed.

(** A φ-node built by a literal without [Preds] has the nil map; a
    caller that assigns into it panics, while lookups report absence. *)
Lemma nil_Preds_assign_panics (ty : types_Type) (v : values_Value) :
  exists p : PhiInst,
    eval_literal (Lit_PhiInst (Some ty) None) = Returns (Node_PhiInst p)
    /\ map_lookup nil_iface (PhiInst_Preds p) "bb1" = (nil_iface, false)
    /\ map_assign (PhiInst_Preds p) "bb1" v
       = Panics "assignment to entry in nil map".
Proof. eexists. repeat split. Qed.

(** ** Further properties of the nodes *)

(** X3.  A comparison built by a literal that leaves [Pred] out carries
    the first constant of its block: [IntEq] for [IcmpInst], [FloatFalse]
    for [FcmpInst], whatever the other fields are. *)
Theorem comparison_Pred_unset
    (ty : option types_Type) (a b : option values_Value) :
  (exists n : IcmpInst,
     eval_literal (Lit_IcmpInst None ty a b) = Returns (Node_IcmpInst n)
     /\ IcmpInst_Pred n = IntEq)
  /\ (exists n : FcmpInst,
        eval_literal (Lit_FcmpInst None ty a b) = Returns (Node_FcmpInst n)
        /\ FcmpInst_Pred n = FloatFalse).
Proof. split; eexists; split; reflexivity. Qed.

(** X4.  A φ-node built by a literal without [Preds] holds the nil map:
    it has no entries, every label is reported absent, and an assignment
    under any label panics. *)
Theorem PhiInst_Preds_unset
    (ty : option types_Type) (l : string) (v : values_Value) :
  exists p : PhiInst,
    eval_literal (Lit_PhiInst ty None) = Returns (Node_PhiInst p)
    /\ map_len (PhiInst_Preds p) = 0%nat
    /\ map_lookup nil_iface (PhiInst_Preds p) l = (nil_iface, false)
    /\ map_assign (PhiInst_Preds p) l v
       = Panics "assignment to entry in nil map".
Proof. eexists. repeat split. Qed.

(** X5.  On a φ-node whose [Preds] is not nil, assigning under a label
    that is not yet a key succeeds and adds exactly one entry: the
    length grows by one, the label then looks up to the value, and the
    lookup of every other label is as before. *)
Theorem PhiInst_Preds_assign_fresh
    (p : PhiInst) (t : gmap string values_Value) (l : string)
    (v : values_Value) :
  PhiInst_Preds p = Some t ->
  t !! l = None ->
  exists m',
    map_assign (PhiInst_Preds p) l v = Returns m'
    /\ map_len m' = S (map_len (PhiInst_Preds p))
    /\ map_lookup nil_iface m' l = (v, true)
    /\ forall l', l' <> l ->
         map_lookup nil_iface m' l' = map_lookup nil_iface (PhiInst_Preds p) l'.
Proof.
  intros Hp Hl. rewrite Hp.
  unfold map_lookup, map_assign, map_len, values_Value in *.
  eexists; split; [reflexivity |].
  split; [by apply map_size_insert_None |].
  split; [by rewrite lookup_insert_eq |].
  intros l' Hne. by rewrite lookup_insert_ne.
Qed.

(** X6.  Two assignments in a row under the same label of [Preds] have
    the outcome of the second alone: the last write wins, and on the nil
    map both sequences panic on their first assignment. *)
Theorem PhiInst_Preds_last_write_wins
    (p : PhiInst) (l : string) (v1 v2 : values_Value) :
  and_then (map_assign (PhiInst_Preds p) l v1)
    (fun m1 => map_assign m1 l v2)
  = map_assign (PhiInst_Preds p) l v2.
Proof.
  destruct (PhiInst_Preds p) as [t |]; simpl; [| reflexivity].
  unfold values_Value in *. by rewrite insert_insert_eq.
Qed.

(** X7.  Assignments under two different labels of [Preds] commute: in
    either order they panic on the nil map and otherwise give the same
    map. *)
Theorem PhiInst_Preds_assign_commute
    (p : PhiInst) (l1 l2 : string) (v1 v2 : values_Value) :
  l1 <> l2 ->
  and_then (map_assign (PhiInst_Preds p) l1 v1)
    (fun m => map_assign m l2 v2)
  = and_then (map_assign (PhiInst_Preds p) l2 v2)
      (fun m => map_assign m l1 v1).
Proof.
  intros Hne. destruct (PhiInst_Preds p) as [t |]; simpl; [| reflexivity].
  unfold values_Value in *. do 2 f_equal. by apply insert_insert_ne.
Qed.

(** X8.  Conversion between a node and the [Instruction] interface is a
    round trip: a node converts to the interface value [i] exactly when
    it is the dynamic value of [i]; and a call of [isInst] through the
    interface returns with that same node behind the interface. *)
Theorem Instruction_conversion_round_trip (n : Node) (i : Instruction) :
  (as_Instruction n = Some i <-> Instruction_node i = n)
  /\ after Instruction_node (isInst i) = Returns (tt, Instruction_node i).
Proof.
  split; [split |].
  - destruct n; simpl; intros H; inversion H; reflexivity.
  - intros <-. destruct i; reflexivity.
  - destruct i; reflexivity.
Qed.

(** X9.  An element of [Indicies] can be read exactly at the positions
    from 0 to the length minus one; at any other position the access
    panics.  With no indices every access panics. *)
Theorem GetelementptrInst_Indicies_bounds (g : GetelementptrInst) (i : Z) :
  (0 <= i < Z.of_nat (len (GetelementptrInst_Indicies g))
   <-> exists x, index (GetelementptrInst_Indicies g) i = Returns x)
  /\ (~ 0 <= i < Z.of_nat (len (GetelementptrInst_Indicies g))
      <-> index (GetelementptrInst_Indicies g) i
          = Panics "index out of range").
Proof.
  unfold index, len.
  destruct (Z.ltb_spec i 0) as [Hneg | Hpos].
  - split; split; intros H; try lia; try reflexivity.
    destruct H as [x Hx]. discriminate Hx.
  - destruct (GetelementptrInst_Indicies g !! Z.to_nat i) as [x |] eqn:Hx.
    + apply lookup_lt_Some in Hx.
      split; split; intros H; try lia; try discriminate H. by exists x.
    + apply lookup_ge_None in Hx.
      split; split; intros H; try lia; try reflexivity.
      destruct H as [y Hy]. discriminate Hy.
Qed.

End Nodes.


(** ** Properties of the classification *)

(** C1.  The struct types that can be assigned to [Instruction] are
    exactly the twelve of the binary-operations group, the only ones
    for which the source declares [isInst].  None of the six bitwise
    binary structs, of the four memory structs and of [IcmpInst],
    [FcmpInst], [PhiInst] satisfies the interface. *)
Theorem Instruction_exactly_binary_operations :
  (forall k : Kind.t, is_Instruction k = true <-> group_of k = BinaryOps)
  /\ List.filter (fun k => negb (is_Instruction k)) Kind.all
     = [ Kind.ShlInst; Kind.LshrInst; Kind.AshrInst;
         Kind.AndInst; Kind.OrInst; Kind.XorInst;
         Kind.AllocaInst; Kind.LoadInst; Kind.StoreInst;
         Kind.GetelementptrInst;
         Kind.IcmpInst; Kind.FcmpInst; Kind.PhiInst ]
  /\ is_Instruction Kind.ShlInst = false
  /\ is_Instruction Kind.IcmpInst = false
  /\ is_Instruction Kind.FcmpInst = false.
Proof.
  split; [| repeat split].
  intros k; destruct k; split; intros H;
    solve [ reflexivity | discriminate H ].
Qed.

(** The twelve binary-operation structs do satisfy [Instruction]. *)
Lemma binary_operations_are_Instruction (k : Kind.t) :
  group_of k = BinaryOps -> is_Instruction k = true.
Proof. destruct k; intros H; solve [ reflexivity | discriminate H ]. Qed.

(** C2.  No struct type of the file implements [Value]: the method set
    of every one of them lacks both [String] and [Type]. *)
Theorem no_struct_implements_Value (k : Kind.t) :
  is_Value k = false
  /\ has_method (method_set k) (method "String" "func() string") = false
  /\ has_method (method_set k) (method "Type" "func() types.Type") = false.
Proof. destruct k; repeat split. Qed.

(** C4.  The [IntPredicate] block declares 10 distinct constants whose
    values are 0 to 9 in the order Eq, Ne, Ugt, Uge, Ult, Ule, Sgt, Sge,
    Slt, Sle; the [FloatPredicate] block declares 16 distinct constants
    whose values are 0 to 15 in the order False, Oeq, Ogt, Oge, Olt, Ole,
    One, Ord, Ueq, Ugt, Uge, Ult, Ule, Une, Uno, True. *)
Theorem predicate_ordinals :
  length IntPredicate_consts = 10%nat
  /\ NoDup IntPredicate_consts
  /\ (fun c => (c, IntPredicate_ord (IntPredicate_const c)))
       <$> IntPredicate_consts
     = [ ("IntEq", 0); ("IntNe", 1); ("IntUgt", 2); ("IntUge", 3);
         ("IntUlt", 4); ("IntUle", 5); ("IntSgt", 6); ("IntSge", 7);
         ("IntSlt", 8); ("IntSle", 9) ]
  /\ IntPredicate_ord
       <$> [ IntEq; IntNe; IntUgt; IntUge; IntUlt; IntUle;
             IntSgt; IntSge; IntSlt; IntSle ]
     = Z.of_nat <$> seq 0 10
  /\ length FloatPredicate_consts = 16%nat
  /\ NoDup FloatPredicate_consts
  /\ (fun c => (c, FloatPredicate_ord (FloatPredicate_const c)))
       <$> FloatPredicate_consts
     = [ ("FloatFalse", 0); ("FloatOeq", 1); ("FloatOgt", 2);
         ("FloatOge", 3); ("FloatOlt", 4); ("FloatOle", 5);
         ("FloatOne", 6); ("FloatOrd", 7); ("FloatUeq", 8);
         ("FloatUgt", 9); ("FloatUge", 10); ("FloatUlt", 11);
         ("FloatUle", 12); ("FloatUne", 13); ("FloatUno", 14);
         ("FloatTrue", 15) ]
  /\ FloatPredicate_ord
       <$> [ FloatFalse; FloatOeq; FloatOgt; FloatOge; FloatOlt;
             FloatOle; FloatOne; FloatOrd; FloatUeq; FloatUgt;
             FloatUge; FloatUlt; FloatUle; FloatUne; FloatUno;
             FloatTrue ]
     = Z.of_nat <$> seq 0 16.
Proof.
  repeat split; try reflexivity.
  - apply (bool_decide_unpack _). vm_compute. exact I.
  - apply (bool_decide_unpack _). vm_compute. exact I.
Qed.

(** ** Further properties of the declarations *)

(** X1.  A value of type [IntPredicate] is one of the ten declared
    constants exactly when its ordinal lies between 0 and 9; the type
    itself also holds the other integers. *)
Theorem IntPredicate_named_iff (p : IntPredicate) :
  (exists c, c ∈ IntPredicate_consts /\ p = IntPredicate_const c)
  <-> 0 <= IntPredicate_ord p <= 9.
Proof.
  split.
  - intros (c & Hc & ->). apply list_elem_of_In in Hc. simpl in Hc.
    repeat (destruct Hc as [<- | Hc]; [vm_compute; split; discriminate |]).
    destruct Hc.
  - destruct p as [i]. unfold IntPredicate_ord; simpl. intros Hi.
    assert (Hn : exists n : nat, (n < 10)%nat /\ int_val i = Z.of_nat n).
    { exists (Z.to_nat (int_val i)). lia. }
    destruct Hn as (n & Hn & Hv).
    destruct (IntPredicate_consts !! n) as [c |] eqn:Hc.
    + exists c. split; [by eapply list_elem_of_lookup_2 |].
      unfold IntPredicate_const. f_equal. apply int_eq. rewrite Hv.
      unfold IntPredicate_consts in Hc.
      do 10 (destruct n as [| n];
             [simpl in Hc; injection Hc as <-; reflexivity | simpl in Hc]).
      lia.
    + apply lookup_ge_None in Hc. simpl in Hc. lia.
Qed.

(** X2.  A value of type [FloatPredicate] is one of the sixteen declared
    constants exactly when its ordinal lies between 0 and 15. *)
Theorem FloatPredicate_named_iff (p : FloatPredicate) :
  (exists c, c ∈ FloatPredicate_consts /\ p = FloatPredicate_const c)
  <-> 0 <= FloatPredicate_ord p <= 15.
Proof.
  split.
  - intros (c & Hc & ->). apply list_elem_of_In in Hc. simpl in Hc.
    repeat (destruct Hc as [<- | Hc]; [vm_compute; split; discriminate |]).
    destruct Hc.
  - destruct p as [i]. unfold FloatPredicate_ord; simpl. intros Hi.
    assert (Hn : exists n : nat, (n < 16)%nat /\ int_val i = Z.of_nat n).
    { exists (Z.to_nat (int_val i)). lia. }
    destruct Hn as (n & Hn & Hv).
    destruct (FloatPredicate_consts !! n) as [c |] eqn:Hc.
    + exists c. split; [by eapply list_elem_of_lookup_2 |].
      unfold FloatPredicate_const. f_equal. apply int_eq. rewrite Hv.
      unfold FloatPredicate_consts in Hc.
      do 16 (destruct n as [| n];
             [simpl in Hc; injection Hc as <-; reflexivity | simpl in Hc]).
      lia.
    + apply lookup_ge_None in Hc. simpl in Hc. lia.
Qed.

(** X10.  The file declares twelve methods in all, one for each struct
    of the binary-operations group; every method of every struct is
    [isInst], without parameters and results. *)
Theorem declared_methods_census :
  length (concat (method_set <$> Kind.all)) = 12%nat
  /\ (forall (k : Kind.t) (m : Method),
        m ∈ method_set k <->
        m = method "isInst" "func()" /\ group_of k = BinaryOps).
Proof.
  split; [reflexivity |].
  intros k m; destruct k; simpl; split;
    try (intros H; apply list_elem_of_singleton in H; by subst);
    try (intros [-> _]; by apply list_elem_of_singleton);
    try (intros H; by apply elem_of_nil in H);
    try (intros [_ H]; discriminate H).
Qed.

(** ** A concrete φ-node

    The running example with numbers as the dynamic values of
    [values.Value]: [v1 = 1], [v2 = 2], and [3] assigned under ["bb2"]. *)
Lemma PhiInst_Preds_lookup_assign_witness :
  PhiInst_Preds unit nat (two_preds_phi unit nat (Some tt) (Some 1%nat) (Some 2%nat))
  = Some (two_preds nat (Some 1%nat) (Some 2%nat))
  /\ two_preds nat (Some 1%nat) (Some 2%nat) !! "bb2" = Some (Some 2%nat)
  /\ map_lookup nil_iface
       (PhiInst_Preds unit nat
          (two_preds_phi unit nat (Some tt) (Some 1%nat) (Some 2%nat)))
       "bb2"
     = (Some 2%nat, true).
Proof.
  split; [reflexivity |]. split; [reflexivity |].
  apply (PhiInst_Preds_lookup_assign unit nat
           (two_preds_phi unit nat (Some tt) (Some 1%nat) (Some 2%nat))
           (two_preds nat (Some 1%nat) (Some 2%nat))
           "bb2" (Some 2%nat) (Some 3%nat)); reflexivity.
Defined.

Lemma PhiInst_Preds_assign_fresh_witness :
  PhiInst_Preds unit nat (two_preds_phi unit nat (Some tt) (Some 1%nat) (Some 2%nat))
  = Some (two_preds nat (Some 1%nat) (Some 2%nat))
  /\ two_preds nat (Some 1%nat) (Some 2%nat) !! "bb3" = None
  /\ exists m',
       map_assign
         (PhiInst_Preds unit nat
            (two_preds_phi unit nat (Some tt) (Some 1%nat) (Some 2%nat)))
         "bb3" (Some 3%nat)
       = Returns m'
       /\ map_len m' = 3%nat.
Proof.
  split; [reflexivity |]. split; [reflexivity |].
  destruct (PhiInst_Preds_assign_fresh unit nat
              (two_preds_phi unit nat (Some tt) (Some 1%nat) (Some 2%nat))
              (two_preds nat (Some 1%nat) (Some 2%nat))
              "bb3" (Some 3%nat) eq_refl eq_refl)
    as (m' & Ha & Hlen & _).
  exists m'. split; [exact Ha | exact Hlen].
Defined.

Lemma PhiInst_Preds_assign_commute_witness :
  "bb1" <> "bb2"
  /\ and_then
       (map_assign
          (PhiInst_Preds unit nat
             (two_preds_phi unit nat (Some tt) (Some 1%nat) (Some 2%nat)))
          "bb1" (Some 5%nat))
       (fun m => map_assign m "bb2" (Some 6%nat))
     = and_then
         (map_assign
            (PhiInst_Preds unit nat
               (two_preds_phi unit nat (Some tt) (Some 1%nat) (Some 2%nat)))
            "bb2" (Some 6%nat))
         (fun m => map_assign m "bb1" (Some 5%nat)).
Proof.
  split; [discriminate |].
  apply (PhiInst_Preds_assign_commute unit nat
           (two_preds_phi unit nat (Some tt) (Some 1%nat) (Some 2%nat))
           "bb1" "bb2" (Some 5%nat) (Some 6%nat)).
  discriminate.
Defined.
